(** * autopip: the import resolver and its install decision loop

    A shallow embedding of [main.py].  The script parses a Python file,
    collects the root names of the modules it imports, and for every module
    that is neither in the standard library nor importable it runs pip,
    falling back on an AI completion service for an alternate package name.

    Strings are byte strings (UTF-8, as the source file is encoded); the
    character classes used by [strip], [lower] and the regular expression are
    the ASCII ones, bytes above 127 are left alone.  On ASCII text they are
    those of the interpreter, and what is stated about the result of these
    functions is stated for ASCII text.

    Exceptions are modelled where the script meets them: at the subprocess
    calls, at the completion service, at the prompt, at [stdlib_list], when
    the file is loaded and in the module-level code.  [find_spec] and
    [print] are taken to return. *)

From stdpp Require Import base strings list gmap.
From Stdlib Require Import Ascii String ZArith NArith Lia.

Local Open Scope string_scope.
Local Open Scope list_scope.
#[local] Set Warnings "-clear-no-such-hyp".


(** ** Python string operations used by the script *)

Module PyStr.

Definition code (c : ascii) : N := N_of_ascii c.

Definition between (lo hi : N) (c : ascii) : bool :=
  ((lo <=? code c) && (code c <=? hi))%N.

(** [str.isspace] on the ASCII range: TAB..CR, FS..US and the space. *)
Definition isspace (c : ascii) : bool := between 9 13 c || between 28 32 c.

Definition isupper (c : ascii) : bool := between 65 90 c.

(** [\w] on the ASCII range: letters, digits and the underscore. *)
Definition isword (c : ascii) : bool :=
  between 48 57 c || between 65 90 c || between 97 122 c || (code c =? 95)%N.

Definition lower_char (c : ascii) : ascii :=
  if isupper c then ascii_of_N (code c + 32) else c.

Fixpoint lower (s : string) : string :=
  match s with
  | EmptyString => EmptyString
  | String c s' => String (lower_char c) (lower s')
  end.

Fixpoint lstrip (s : string) : string :=
  match s with
  | EmptyString => EmptyString
  | String c s' => if isspace c then lstrip s' else s
  end.

Fixpoint rstrip (s : string) : string :=
  match s with
  | EmptyString => EmptyString
  | String c s' =>
      match rstrip s' with
      | EmptyString => if isspace c then EmptyString else String c EmptyString
      | r => String c r
      end
  end.

Definition strip (s : string) : string := rstrip (lstrip s).

(** Truthiness of a [str]: only the empty string is falsy. *)
Definition truthy (s : string) : bool :=
  match s with EmptyString => false | String _ _ => true end.

(** [s.split(".")[0]]: the part of [s] before its first dot. *)
Fixpoint split_dot_0 (s : string) : string :=
  match s with
  | EmptyString => EmptyString
  | String c s' => if Ascii.eqb c "." then EmptyString else String c (split_dot_0 s')
  end.

Fixpoint take_while (p : ascii -> bool) (s : string) : string :=
  match s with
  | EmptyString => EmptyString
  | String c s' => if p c then String c (take_while p s') else EmptyString
  end.

Fixpoint strip_prefix (p s : string) : option string :=
  match p, s with
  | EmptyString, _ => Some s
  | String a p', String b s' => if Ascii.eqb a b then strip_prefix p' s' else None
  | String _ _, EmptyString => None
  end.

End PyStr.

(** ** The regular expression [pip install ([\w\-]+)] *)

Module Re.

(** The character class [[\w\-]]. *)
Definition pkg_char (c : ascii) : bool := PyStr.isword c || Ascii.eqb c "-".

(** A match anchored at the head of [s]: the literal, then the longest
    non-empty run of class characters, which is group 1. *)
Definition match_here (s : string) : option string :=
  match PyStr.strip_prefix "pip install " s with
  | Some rest =>
      match PyStr.take_while pkg_char rest with
      | EmptyString => None
      | g => Some g
      end
  | None => None
  end.

(** [re.search]: the leftmost position at which the pattern matches. The
    result is [match.group(1) if match else None]. *)
Fixpoint search_group1 (s : string) : option string :=
  match match_here s with
  | Some g => Some g
  | None =>
      match s with
      | EmptyString => None
      | String _ s' => search_group1 s'
      end
  end.

End Re.

(** ** The static table and the package name resolver *)

Definition COMMON_MAP : gmap string string :=
  list_to_map
    [ ("bs4", "beautifulsoup4");
      ("cv2", "opencv-python");
      ("sklearn", "scikit-learn");
      ("PIL", "pillow");
      ("yaml", "pyyaml");
      ("Crypto", "pycryptodome") ].

(** [COMMON_MAP[module] if module in COMMON_MAP else module]. *)
Definition resolve_package (module : string) : string :=
  match COMMON_MAP !! module with
  | Some package => package
  | None => module
  end.

(** ** The syntax tree walked by the import extractor *)

Module Ast.

Record alias := Alias { name : string; asname : option string }.

(** The two node classes the extractor tests for, with the fields of the
    [ast] module; every other node class is [Other] with its child nodes. *)
#[warnings="-register-all"] Inductive node :=
| Import (names : list alias)
| ImportFrom (module : option string) (names : list alias) (level : nat)
| Other (children : list node).

(** [ast.walk]: the node and all its descendants.  The order is left
    unspecified by the library; the extractor builds a set from it.  The
    [alias] children of the two import nodes are of neither class and are
    left out. *)
Fixpoint walk (n : node) : list node :=
  n :: match n with
       | Other children => flat_map walk children
       | _ => []
       end.

End Ast.

(** The body of the [for node in ast.walk(tree)] loop. *)
Definition visit (imports : gset string) (n : Ast.node) : gset string :=
  match n with
  | Ast.Import names =>
      foldl (fun acc a => acc ∪ {[ PyStr.split_dot_0 (Ast.name a) ]}) imports names
  | Ast.ImportFrom (Some module) _ _ =>
      if PyStr.truthy module then imports ∪ {[ PyStr.split_dot_0 module ]} else imports
  | Ast.ImportFrom None _ _ => imports
  | Ast.Other _ => imports
  end.

(** [extract_imports], from the parsed tree on (reading and parsing the file
    are the interpreter's). *)
Definition extract_imports (tree : Ast.node) : gset string :=
  foldl visit ∅ (Ast.walk tree).

(** ** Exceptions, subprocess calls and the completion service *)

(** The exceptions the script tells apart, all of them subclasses of
    [Exception]: [OtherException] is any such exception that is neither of
    the first two ([OSError], [EOFError], ...).  [msg] is [str(e)]. *)
Inductive exn :=
| CalledProcessError (msg : string)
| FileNotFoundError (msg : string)
| OtherException (msg : string).

Definition exn_str (e : exn) : string :=
  match e with
  | CalledProcessError msg | FileNotFoundError msg | OtherException msg => msg
  end.

(** The two command lines handed to [subprocess.check_call]. *)
Inductive command :=
| PipInstall (package : string)
| PipInstallDryRun (pkg : string).

Definition argv (executable : string) (c : command) : list string :=
  match c with
  | PipInstall package => [executable; "-m"; "pip"; "install"; package]
  | PipInstallDryRun pkg => [executable; "-m"; "pip"; "install"; "--dry-run"; pkg]
  end.

Inductive call_result :=
| CallReturned
| CallRaised (e : exn).

(** The [context] argument of [ask_ai_for_package] at its three call sites. *)
Inductive context :=
| SuggestReplacement
| LastAnswerInvalid
| ExistsButFails (suggested_pkg : string).

Definition context_text (c : context) : string :=
  match c with
  | SuggestReplacement => "Suggest a valid PyPI package replacement."
  | LastAnswerInvalid =>
      "Your last answer was invalid. Give only a valid PyPI package name."
  | ExistsButFails suggested_pkg =>
      "The package '" +:+ suggested_pkg +:+
      "' exists but fails to install. Suggest the modern supported replacement."
  end.

Definition newline : string := String (ascii_of_N 10) EmptyString.

Definition system_content : string :=
  "You are a Python packaging assistant. " +:+
  "When asked for a package, respond ONLY with a valid 'pip install <package>' command " +:+
  "using the exact PyPI package name. Do not invent names like 'python-<pkg>'.".

Definition user_content (module : string) (c : context) : string :=
  "The Python module '" +:+ module +:+ "' failed. " +:+ context_text c +:+ newline +:+
  "Which exact PyPI package should be installed? Reply only with: pip install <package>".

Inductive chat_result :=
| ChatContent (content : string)
| ChatRaised (e : exn).

(** What [input] gives: the line typed, or the exception it raises
    ([EOFError] on a closed standard input). *)
Inductive input_result :=
| InputLine (answer : string)
| InputRaised (e : exn).

(** ** What the script prints *)

Inductive line :=
| AiRequestFailed (e : exn)
| Installed (package : string)
| PipNotFound
| RunEnsurepip
| RunUpgradePip
| FailedToInstall (package module : string) (e : exn)
| PartOfStdlib (module : string)
| Installing (package module : string)
| NotRealPackage (suggested_pkg : string)
| ExistsButFailed (suggested_pkg : string)
| AiSuggests (ai_suggestion : option string)
| SkippedAlternative (module : string)
| NoValidName (module : string)
| AlreadyInstalled (module : string).

(** An f-string field holding [None] prints as the word. *)
Definition fmt_opt (o : option string) : string := default "None" o.

Definition render (l : line) : string :=
  match l with
  | AiRequestFailed e => "⚠️ AI request failed: " +:+ exn_str e
  | Installed package => "✅ Installed " +:+ package
  | PipNotFound => "❌ pip not found in this environment. Run:"
  | RunEnsurepip => "   python -m ensurepip --upgrade"
  | RunUpgradePip => "   python -m pip install --upgrade pip"
  | FailedToInstall package module e =>
      "❌ Failed to install " +:+ package +:+ " for module '" +:+ module +:+ "': " +:+ exn_str e
  | PartOfStdlib module => "✅ " +:+ module +:+ " is part of Python stdlib"
  | Installing package module =>
      "📦 Installing " +:+ package +:+ " for module '" +:+ module +:+ "'..."
  | NotRealPackage suggested_pkg =>
      "⚠️ '" +:+ suggested_pkg +:+ "' is not a real PyPI package. Asking AI again..."
  | ExistsButFailed suggested_pkg =>
      "⚠️ '" +:+ suggested_pkg +:+ "' exists but failed to install. Asking AI for a replacement..."
  | AiSuggests ai_suggestion => newline +:+ "🤖 AI suggests: " +:+ fmt_opt ai_suggestion
  | SkippedAlternative module => "⏭️ Skipped installing alternative for '" +:+ module +:+ "'"
  | NoValidName module =>
      "⚠️ No valid package name found in AI suggestion for '" +:+ module +:+ "'. Skipping."
  | AlreadyInstalled module => "✅ " +:+ module +:+ " already installed"
  end.

(** The one question put to the user. *)
Inductive prompt :=
| InstallInstead (suggested_pkg module : string).

Definition prompt_text (p : prompt) : string :=
  match p with
  | InstallInstead suggested_pkg module =>
      "👉 Do you want to install '" +:+ suggested_pkg +:+ "' instead of '" +:+ module +:+ "'? (Y/n): "
  end.

(** ** Programs: the script's calls to the outside, in order *)

Inductive prog (A : Type) : Type :=
| Ret (a : A)
| SysExit (code : Z)
| Raise (e : exn)
| CheckCall (c : command) (k : call_result -> prog A)
| ChatCreate (module : string) (c : context) (k : chat_result -> prog A)
| FindSpec (module : string) (k : bool -> prog A)
| Input (p : prompt) (k : input_result -> prog A)
| Print (l : line) (k : prog A).

Arguments Ret {A} a.
Arguments SysExit {A} code.
Arguments Raise {A} e.
Arguments CheckCall {A} c k.
Arguments ChatCreate {A} module c k.
Arguments FindSpec {A} module k.
Arguments Input {A} p k.
Arguments Print {A} l k.

Fixpoint bind {A B : Type} (p : prog A) (f : A -> prog B) : prog B :=
  match p with
  | Ret a => f a
  | SysExit code => SysExit code
  | Raise e => Raise e
  | CheckCall c k => CheckCall c (fun r => bind (k r) f)
  | ChatCreate module c k => ChatCreate module c (fun r => bind (k r) f)
  | FindSpec module k => FindSpec module (fun r => bind (k r) f)
  | Input p k => Input p (fun r => bind (k r) f)
  | Print l k => Print l (bind k f)
  end.

Declare Scope prog_scope.
Delimit Scope prog_scope with prog.
Notation "'let*' x ':=' p 'in' q" := (bind p (fun x => q))
  (at level 10, x pattern, p at level 100, q at level 200) : prog_scope.
Notation "p ';;' q" := (bind p (fun _ => q))
  (at level 100, q at level 200, right associativity) : prog_scope.
Local Open Scope prog_scope.

Definition check_call (c : command) : prog call_result := CheckCall c Ret.
Definition chat_completions_create (module : string) (c : context) : prog chat_result :=
  ChatCreate module c Ret.
Definition find_spec (module : string) : prog bool := FindSpec module Ret.
(** No [try] of the script encloses the call of [input]: what it raises is
    not caught. *)
Definition input (p : prompt) : prog string :=
  Input p (fun r => match r with
                    | InputLine answer => Ret answer
                    | InputRaised e => Raise e
                    end).
Definition print (l : line) : prog unit := Print l (Ret tt).
Definition sys_exit {A} (code : Z) : prog A := SysExit code.

(** ** The functions of the script *)

Definition ask_ai_for_package (module : string) (c : context) : prog (option string) :=
  let* resp := chat_completions_create module c in
  match resp with
  | ChatContent content => Ret (Some (PyStr.strip content))
  | ChatRaised e => print (AiRequestFailed e);; Ret None
  end.

Definition try_install (package module : string) : prog bool :=
  let* r := check_call (PipInstall package) in
  match r with
  | CallReturned => print (Installed package);; Ret true
  | CallRaised (FileNotFoundError _) =>
      print PipNotFound;; print RunEnsurepip;; print RunUpgradePip;; sys_exit 1
  | CallRaised e => print (FailedToInstall package module e);; Ret false
  end.

Definition is_real_pypi_package (pkg : string) : prog bool :=
  let* r := check_call (PipInstallDryRun pkg) in
  match r with
  | CallReturned => Ret true
  | CallRaised (CalledProcessError _) => Ret false
  | CallRaised e => Raise e
  end.

(** [match = re.search(..., ai_suggestion or ""); match.group(1) if match
    else None]. *)
Definition search_suggestion (ai_suggestion : option string) : option string :=
  Re.search_group1 (default "" ai_suggestion).

Definition truthy_opt (o : option string) : bool :=
  match o with
  | Some s => PyStr.truthy s
  | None => false
  end.

(** [if suggested_pkg and test(suggested_pkg): then_ else: else_]; the test
    is not run on a falsy name. *)
Definition if_pkg_and {A} (suggested_pkg : option string) (test : string -> prog bool)
    (then_ : string -> prog A) (else_ : prog A) : prog A :=
  match suggested_pkg with
  | Some pkg =>
      if PyStr.truthy pkg
      then let* b := test pkg in if b then then_ pkg else else_
      else else_
  | None => else_
  end.

Definition is_not_real (pkg : string) : prog bool :=
  let* real := is_real_pypi_package pkg in Ret (negb real).

(** The answer test of the confirmation prompt. *)
Definition accepts (answer : string) : bool :=
  let choice := PyStr.lower (PyStr.strip answer) in
  String.eqb choice "y" || String.eqb choice "Y".

(** Lines 129 to 163: what follows a failed direct install. *)
Definition ai_fallback (module : string) : prog unit :=
  let* ai_suggestion := ask_ai_for_package module SuggestReplacement in
  if truthy_opt ai_suggestion then
    let suggested_pkg := search_suggestion ai_suggestion in
    let* (ai_suggestion, suggested_pkg) :=
      if_pkg_and suggested_pkg is_not_real
        (fun pkg =>
           print (NotRealPackage pkg);;
           let* ai_suggestion := ask_ai_for_package module LastAnswerInvalid in
           Ret (ai_suggestion, search_suggestion ai_suggestion))
        (Ret (ai_suggestion, suggested_pkg)) in
    if_pkg_and suggested_pkg is_real_pypi_package
      (fun pkg =>
         let* installed := try_install pkg module in
         let* (ai_suggestion, suggested_pkg) :=
           if negb installed then
             print (ExistsButFailed pkg);;
             let* ai_suggestion := ask_ai_for_package module (ExistsButFails pkg) in
             Ret (ai_suggestion, search_suggestion ai_suggestion)
           else Ret (ai_suggestion, Some pkg) in
         if_pkg_and suggested_pkg is_real_pypi_package
           (fun pkg =>
              print (AiSuggests ai_suggestion);;
              let* answer := input (InstallInstead pkg module) in
              if accepts answer
              then try_install pkg module;; Ret tt
              else print (SkippedAlternative module))
           (print (NoValidName module)))
      (Ret tt)
  else Ret tt.

(** The body of the loop of [install_missing], for one module. *)
Definition install_module (stdlib : gset string) (module : string) : prog unit :=
  if bool_decide (module ∈ stdlib) then print (PartOfStdlib module)
  else
    let* found := find_spec module in
    if negb found then
      let package := resolve_package module in
      print (Installing package module);;
      let* success := try_install package module in
      if negb success then ai_fallback module else Ret tt
    else print (AlreadyInstalled module).

(** [install_missing]; [imports] lists the set in the order the loop visits
    it, [stdlib] is [set(stdlib_list.stdlib_list(version_str))]. *)
Fixpoint install_missing (stdlib : gset string) (imports : list string) : prog unit :=
  match imports with
  | [] => Ret tt
  | module :: rest => install_module stdlib module;; install_missing stdlib rest
  end.

(** ** Running a program against an environment *)

Inductive event :=
| EvCheckCall (c : command) (r : call_result)
| EvChat (module : string) (c : context) (r : chat_result)
| EvFindSpec (module : string) (found : bool)
| EvInput (p : prompt) (r : input_result)
| EvPrint (l : line).

(** The outside world answers each call; the answer may depend on everything
    that happened before, given oldest first. *)
Record Env := {
  env_check_call : list event -> command -> call_result;
  env_chat : list event -> string -> context -> chat_result;
  env_find_spec : list event -> string -> bool;
  env_input : list event -> prompt -> input_result
}.

Inductive outcome (A : Type) :=
| Returned (a : A)
| Exited (code : Z)
| Crashed (e : exn).

Arguments Returned {A} a.
Arguments Exited {A} code.
Arguments Crashed {A} e.

(** The status the interpreter exits with: 0 at the end of the script, the
    argument of [sys.exit], 1 on an uncaught exception. *)
Definition exit_code {A} (o : outcome A) : Z :=
  match o with
  | Returned _ => 0
  | Exited code => code
  | Crashed _ => 1
  end.

(** The events a program adds to the history [h], oldest first. *)
Fixpoint events_of {A} (E : Env) (p : prog A) (h : list event) : list event :=
  match p with
  | Ret _ | SysExit _ | Raise _ => []
  | CheckCall c k =>
      let ev := EvCheckCall c (env_check_call E h c) in
      ev :: events_of E (k (env_check_call E h c)) (h ++ [ev])
  | ChatCreate module c k =>
      let ev := EvChat module c (env_chat E h module c) in
      ev :: events_of E (k (env_chat E h module c)) (h ++ [ev])
  | FindSpec module k =>
      let ev := EvFindSpec module (env_find_spec E h module) in
      ev :: events_of E (k (env_find_spec E h module)) (h ++ [ev])
  | Input p k =>
      let ev := EvInput p (env_input E h p) in
      ev :: events_of E (k (env_input E h p)) (h ++ [ev])
  | Print l k => EvPrint l :: events_of E k (h ++ [EvPrint l])
  end.

Fixpoint outcome_of {A} (E : Env) (p : prog A) (h : list event) : outcome A :=
  match p with
  | Ret a => Returned a
  | SysExit code => Exited code
  | Raise e => Crashed e
  | CheckCall c k =>
      outcome_of E (k (env_check_call E h c)) (h ++ [EvCheckCall c (env_check_call E h c)])
  | ChatCreate module c k =>
      outcome_of E (k (env_chat E h module c)) (h ++ [EvChat module c (env_chat E h module c)])
  | FindSpec module k =>
      outcome_of E (k (env_find_spec E h module))
        (h ++ [EvFindSpec module (env_find_spec E h module)])
  | Input p k =>
      outcome_of E (k (env_input E h p)) (h ++ [EvInput p (env_input E h p)])
  | Print l k => outcome_of E k (h ++ [EvPrint l])
  end.

Definition run {A} (E : Env) (p : prog A) (h : list event) : list event * outcome A :=
  (events_of E p h, outcome_of E p h).

(** What appeared on standard output. *)
Definition stdout (t : list event) : list line :=
  omap (fun ev => match ev with EvPrint l => Some l | _ => None end) t.

(** ** Observations on a trace *)

(** The packages handed to [pip install] for real, in order. *)
Definition install_attempts (t : list event) : list string :=
  omap (fun ev => match ev with EvCheckCall (PipInstall package) _ => Some package | _ => None end) t.

(** The answers of [pip install] proper, in order; the first is the direct
    attempt. *)
Definition install_results (t : list event) : list call_result :=
  omap (fun ev => match ev with EvCheckCall (PipInstall _) r => Some r | _ => None end) t.

Definition subprocess_calls (t : list event) : list command :=
  omap (fun ev => match ev with EvCheckCall c _ => Some c | _ => None end) t.

(** The queries sent to the completion service: module and context. *)
Definition ai_queries (t : list event) : list (string * context) :=
  omap (fun ev => match ev with EvChat module c _ => Some (module, c) | _ => None end) t.

(** The contexts of the queries sent about one module. *)
Definition queries_for (module : string) (t : list event) : list context :=
  snd <$> filter (fun q => q.1 = module) (ai_queries t).

Definition prompts (t : list event) : list prompt :=
  omap (fun ev => match ev with EvInput p _ => Some p | _ => None end) t.

Definition is_initial (c : context) : bool :=
  match c with SuggestReplacement => true | _ => false end.
Definition is_invalid_retry (c : context) : bool :=
  match c with LastAnswerInvalid => true | _ => false end.
Definition is_fails_retry (c : context) : bool :=
  match c with ExistsButFails _ => true | _ => false end.

Definition count (P : context -> bool) (cs : list context) : nat :=
  List.length (List.filter P cs).

(** The five sequences of queries the loop body can send for a module. *)
Definition query_shape (cs : list context) : bool :=
  match cs with
  | []
  | [SuggestReplacement]
  | [SuggestReplacement; LastAnswerInvalid]
  | [SuggestReplacement; ExistsButFails _]
  | [SuggestReplacement; LastAnswerInvalid; ExistsButFails _] => true
  | _ => false
  end.

(** Whether the exists-but-fails query has been sent. *)
Definition asked_replacement (t : list event) : bool :=
  existsb (fun q => is_fails_retry q.2) (ai_queries t).

Definition ai_invoked (t : list event) : bool :=
  match ai_queries t with
  | [] => false
  | _ :: _ => true
  end.

(** The value [try_install] hands back on an answer of pip: [None] where it
    ends the process instead. *)
Definition try_install_value (r : call_result) : option bool :=
  match r with
  | CallReturned => Some true
  | CallRaised (FileNotFoundError _) => None
  | CallRaised _ => Some false
  end.

(** The first [pip install] of a module's run is the direct attempt; it has
    failed when [try_install] came back with [False]. *)
Definition direct_install_failed (t : list event) : bool :=
  match install_results t with
  | r :: _ =>
      match try_install_value r with
      | Some false => true
      | _ => false
      end
  | [] => false
  end.

(** The two lines that close a module's resolution with a warning. *)
Definition terminating_warning (module : string) (l : line) : bool :=
  match l with
  | SkippedAlternative m | NoValidName m => bool_decide (m = module)
  | _ => false
  end.

(** The module a printed line names, if any. *)
Definition line_module (l : line) : option string :=
  match l with
  | FailedToInstall _ module _ | PartOfStdlib module | Installing _ module
  | SkippedAlternative module | NoValidName module | AlreadyInstalled module => Some module
  | _ => None
  end.

(** The outcome of the two tests at the head of the loop body. *)
Inductive classification := StdLib | AlreadyThere | Missing.

Definition classify (stdlib : gset string) (E : Env) (h : list event) (module : string)
  : classification :=
  if bool_decide (module ∈ stdlib) then StdLib
  else if env_find_spec E h module then AlreadyThere else Missing.

(** The names a single node of the tree can put into the import set. *)
Definition contributes (n : Ast.node) (x : string) : Prop :=
  match n with
  | Ast.Import names => exists a, a ∈ names /\ x = PyStr.split_dot_0 (Ast.name a)
  | Ast.ImportFrom (Some module) _ _ => module <> "" /\ x = PyStr.split_dot_0 module
  | Ast.ImportFrom None _ _ => False
  | Ast.Other _ => False
  end.

(** ** Properties of every position of a trace *)

Fixpoint at_every_split {A} (P : list A -> A -> list A -> Prop) (pre t : list A) : Prop :=
  match t with
  | [] => True
  | x :: post => P pre x post /\ at_every_split P (pre ++ [x]) post
  end.


(** What precedes each [pip install]: nothing from the service before the
    direct attempt, a successful dry run and no prompt before the second,
    an accepted prompt before any later one. *)
Definition install_gated (module : string) (pre : list event) (x : event) (post : list event)
  : Prop :=
  match x with
  | EvCheckCall (PipInstall c) _ =>
      match install_attempts pre with
      | [] => c = resolve_package module /\ ai_queries pre = []
      | [_] =>
          asked_replacement pre = false /\ prompts pre = []
          /\ last pre = Some (EvCheckCall (PipInstallDryRun c) CallReturned)
      | _ =>
          exists answer,
            last pre = Some (EvInput (InstallInstead c module) (InputLine answer))
            /\ accepts answer = true
      end
  | _ => True
  end.

(** ** Environments for concrete runs *)

Module Scenario.

Definition exit_status_1 : exn :=
  CalledProcessError "Command returned non-zero exit status 1.".

Definition no_such_file : exn :=
  FileNotFoundError "[Errno 2] No such file or directory".

(** The interpreter binary cannot be started: every subprocess call raises
    [FileNotFoundError]. *)
Definition no_pip : Env :=
  {| env_check_call _ _ := CallRaised no_such_file;
     env_chat _ _ _ := ChatContent "pip install requests";
     env_find_spec _ _ := false;
     env_input _ _ := InputLine "" |}.

(** Every name is in the index but only [bar] installs.  The service
    proposes [foo], and [bar] once told that [foo] fails. *)
Definition foo_then_bar (answer : string) : Env :=
  {| env_check_call _ c :=
       match c with
       | PipInstall package =>
           if String.eqb package "bar" then CallReturned else CallRaised exit_status_1
       | PipInstallDryRun _ => CallReturned
       end;
     env_chat _ _ c :=
       match c with
       | ExistsButFails _ => ChatContent "pip install bar"
       | _ => ChatContent "Try this: pip install foo"
       end;
     env_find_spec _ _ := false;
     env_input _ _ := InputLine answer |}.

(** Nothing installs and nothing is in the index; the service keeps
    proposing a name that does not exist. *)
Definition invalid_twice : Env :=
  {| env_check_call _ _ := CallRaised exit_status_1;
     env_chat _ _ _ := ChatContent "pip install nosuchpkg";
     env_find_spec _ _ := false;
     env_input _ _ := InputLine "" |}.

(** Everything installs at the first attempt; [numpy] is there already. *)
Definition healthy : Env :=
  {| env_check_call _ _ := CallReturned;
     env_chat _ _ _ := ChatContent "pip install requests";
     env_find_spec _ m := String.eqb m "numpy";
     env_input _ _ := InputLine "y" |}.

(** [from . import helper] followed by [import os.path]. *)
Definition sibling_import : Ast.node :=
  Ast.Other [Ast.ImportFrom None [Ast.Alias "helper" None] 1;
             Ast.Import [Ast.Alias "os.path" None]].

(** [from .pkg import Y]. *)
Definition relative_from_pkg : Ast.node :=
  Ast.Other [Ast.ImportFrom (Some "pkg") [Ast.Alias "Y" None] 1].

End Scenario.

(** ** Further observations *)

(** Whether every character of a string satisfies a test. *)
Fixpoint all_chars (p : ascii -> bool) (s : string) : bool :=
  match s with
  | EmptyString => true
  | String c s' => p c && all_chars p s'
  end.

(** Text in which every character is below 128, where the character classes
    of the model are those of the interpreter. *)
Definition is_ascii (s : string) : bool :=
  all_chars (fun c => (PyStr.code c <? 128)%N) s.

Definition has_dot (s : string) : bool :=
  negb (all_chars (fun c => negb (Ascii.eqb c ".")) s).

(** The text after the first character of a string, for looking one
    character ahead. *)
Definition next_char_ok (p : ascii -> bool) (s : string) : bool :=
  match s with
  | EmptyString => true
  | String c _ => negb (p c)
  end.

(** The names handed to [pip install --dry-run], with the answers. *)
Definition dry_run_results (t : list event) : list (string * call_result) :=
  omap (fun ev => match ev with
                  | EvCheckCall (PipInstallDryRun pkg) r => Some (pkg, r)
                  | _ => None
                  end) t.

(** The answers of the completion service, in order. *)
Definition chat_results (t : list event) : list chat_result :=
  omap (fun ev => match ev with EvChat _ _ r => Some r | _ => None end) t.

(** The modules looked up with [find_spec]. *)
Definition probed (t : list event) : list string :=
  omap (fun ev => match ev with EvFindSpec module _ => Some module | _ => None end) t.

Definition is_print (ev : event) : bool :=
  match ev with EvPrint _ => true | _ => false end.

Definition closing_warning (l : line) : bool :=
  match l with
  | SkippedAlternative _ | NoValidName _ => true
  | _ => false
  end.

(** The answers that end the process: a binary that cannot be started at a
    real install, which [try_install] turns into [sys.exit(1)], any exception
    other than [CalledProcessError] at a dry run, and any exception of
    [input], neither of which is caught. *)
Inductive fatal :=
| FatalExit
| FatalRaise (e : exn).

Definition fatal_of (ev : event) : option fatal :=
  match ev with
  | EvCheckCall (PipInstall _) (CallRaised (FileNotFoundError _)) => Some FatalExit
  | EvCheckCall (PipInstallDryRun _) (CallRaised (CalledProcessError _)) => None
  | EvCheckCall (PipInstallDryRun _) (CallRaised e) => Some (FatalRaise e)
  | EvInput _ (InputRaised e) => Some (FatalRaise e)
  | _ => None
  end.

(** The outcome a trace accounts for. *)
Definition verdict (t : list event) : outcome unit :=
  match omap fatal_of t with
  | [] => Returned tt
  | FatalExit :: _ => Exited 1
  | FatalRaise e :: _ => Crashed e
  end.

Definition within_bounds (t : list event) : bool :=
  Nat.leb (List.length (install_attempts t)) 3
  && Nat.leb (List.length (dry_run_results t)) 3
  && Nat.leb (List.length (prompts t)) 1
  && Nat.leb (List.length (List.filter closing_warning (stdout t))) 1.

(** The modules for which one of the three lines that tell the class of a
    module was printed. *)
Definition announced (t : list event) : list string :=
  omap (fun ev => match ev with
                  | EvPrint (PartOfStdlib module) | EvPrint (AlreadyInstalled module)
                  | EvPrint (Installing _ module) => Some module
                  | _ => None
                  end) t.

(** The first line printed is the line that tells the class of the
    module. *)
Definition class_line_first (module : string) (t : list event) : Prop :=
  match stdout t with
  | l :: _ =>
      l = PartOfStdlib module \/ l = AlreadyInstalled module
      \/ l = Installing (resolve_package module) module
  | [] => False
  end.

(** What holds of the whole run of the loop body for a module. *)
Definition body_facts (module : string) (t : list event) (o : outcome unit) : Prop :=
  within_bounds t = true
  /\ o = verdict t
  /\ class_line_first module t
  /\ Forall (eq module) (probed t)
  /\ announced t = [module].

(** Replies of the completion service made of ASCII characters only, on
    which [strip] and the pattern of the model are those of the
    interpreter. *)
Definition ascii_replies (t : list event) : bool :=
  forallb (fun ev => match ev with
                     | EvChat _ _ (ChatContent content) => is_ascii content
                     | _ => true
                     end) t.

(** The name [c] is what the pattern finds in the latest answer of the
    service. *)
Definition from_latest_answer (pre : list event) (c : string) : Prop :=
  exists content,
    last (chat_results pre) = Some (ChatContent content)
    /\ search_suggestion (Some (PyStr.strip content)) = Some c.

(** Where a name given to pip comes from. *)
Definition name_vetted (pre : list event) (x : event) : Prop :=
  match x with
  | EvCheckCall (PipInstallDryRun c) _ => from_latest_answer pre c
  | EvCheckCall (PipInstall c) _ =>
      match install_attempts pre with
      | [] => True
      | _ :: _ =>
          from_latest_answer pre c
          /\ last (dry_run_results pre) = Some (c, CallReturned)
      end
  | _ => True
  end.

(** What follows a successful install of the first candidate. *)
Definition asked_after_success (module : string) (pre : list event) (x : event)
    (post : list event) : Prop :=
  match x with
  | EvCheckCall (PipInstall c) CallReturned =>
      match install_attempts pre with
      | [_] =>
          exists r rest,
            post = EvPrint (Installed c) :: EvCheckCall (PipInstallDryRun c) r :: rest
            /\ match r with
               | CallReturned =>
                   exists ai_suggestion answer rest',
                     rest = EvPrint (AiSuggests ai_suggestion)
                            :: EvInput (InstallInstead c module) answer :: rest'
               | CallRaised _ => True
               end
      | _ => True
      end
  | _ => True
  end.

(** A closing warning names the module and nothing follows it; after a
    fatal answer of pip nothing but printing follows. *)
Definition ends_properly (module : string) (x : event) (post : list event) : Prop :=
  match x with
  | EvPrint (SkippedAlternative m) | EvPrint (NoValidName m) => m = module /\ post = []
  | _ =>
      match fatal_of x with
      | Some _ => forallb is_print post = true
      | None => True
      end
  end.

(** What follows a successful dry run.  With one install made so far, the
    dry run that checks the first answer is followed by the dry run of the
    same name that guards the install, and that one by the install itself;
    with two installs made, it is followed by the suggestion line and the
    prompt about that name. *)
Definition candidate_goes_on (module : string) (pre : list event) (x : event)
    (post : list event) : Prop :=
  match x with
  | EvCheckCall (PipInstallDryRun c) CallReturned =>
      match install_attempts pre with
      | [] => False
      | [_] =>
          asked_replacement pre = false
          /\ match last pre with
             | Some (EvChat _ SuggestReplacement _) =>
                 exists r rest, post = EvCheckCall (PipInstallDryRun c) r :: rest
             | _ => exists r rest, post = EvCheckCall (PipInstall c) r :: rest
             end
      | _ =>
          exists ai_suggestion r rest,
            post = EvPrint (AiSuggests ai_suggestion)
                   :: EvInput (InstallInstead c module) r :: rest
      end
  | _ => True
  end.

Definition position_facts (module : string) (pre : list event) (x : event)
    (post : list event) : Prop :=
  name_vetted pre x /\ asked_after_success module pre x post /\ ends_properly module x post
  /\ candidate_goes_on module pre x post.

(** ** The entry point *)

(** [open], [read] and [ast.parse] on the script path: a tree, or the
    exception that ends the run. *)
Inductive load_result :=
| Loaded (tree : Ast.node)
| LoadRaised (e : exn).

(** [stdlib_list.stdlib_list(version_str)]: the list of names, or the
    exception it raises. *)
Inductive stdlib_result :=
| StdlibList (names : list string)
| StdlibRaised (e : exn).

(** [install_missing] from its first line: the standard-library list is
    fetched, turned into a set, and the loop runs. *)
Definition install_missing_call (sl : stdlib_result) (imports : list string) : prog unit :=
  match sl with
  | StdlibRaised e => Raise e
  | StdlibList names => install_missing (list_to_set names) imports
  end.

Inductive main_event :=
| MainStartupRaised (e : exn)
| MainUsage
| MainLoad (file_path : string) (r : load_result)
| MainFound (imports : gset string)
| MainLoop (ev : event).

(** What the script finds around it: whether its module-level code (the
    imports, [load_dotenv()], [Perplexity()]) raises, the file system, the
    standard-library list, the order in which a [for] loop visits a set, and
    the environment of the loop. *)
Record Host := {
  host_startup : option exn;
  host_load : string -> load_result;
  host_stdlib_list : stdlib_result;
  host_order : gset string -> list string;
  host_env : Env
}.

(** The script run as a program: the module-level code of lines 1 to 29,
    then the block under [if __name__ == "__main__"]; [argv] is
    [sys.argv]. *)
Definition main (H : Host) (argv : list string) : list main_event * outcome unit :=
  match host_startup H with
  | Some e => ([MainStartupRaised e], Crashed e)
  | None =>
      if Nat.ltb (List.length argv) 2 then ([MainUsage], Exited 1)
      else
        let file_path := nth 1 argv "" in
        match host_load H file_path with
        | LoadRaised e => ([MainLoad file_path (LoadRaised e)], Crashed e)
        | Loaded tree =>
            let imports := extract_imports tree in
            let loop := install_missing_call (host_stdlib_list H) (host_order H imports) in
            (MainLoad file_path (Loaded tree) :: MainFound imports
               :: (MainLoop <$> events_of (host_env H) loop []),
             outcome_of (host_env H) loop [])
        end
  end.

Definition loop_events (t : list main_event) : list event :=
  omap (fun ev => match ev with MainLoop ev => Some ev | _ => None end) t.

(** A host on which everything installs and sets are visited in the order
    of [elements]. *)
Definition plain_host (tree : Ast.node) (E : Env) : Host :=
  {| host_startup := None;
     host_load _ := Loaded tree;
     host_stdlib_list := StdlibList ["os"; "json"];
     host_order := elements;
     host_env := E |}.

(** [import os.path], [import bs4] and, inside a block, [from cv2 import
    imread]. *)
Definition sample_script : Ast.node :=
  Ast.Other [Ast.Import [Ast.Alias "os.path" None];
             Ast.Import [Ast.Alias "bs4" None];
             Ast.Other [Ast.ImportFrom (Some "cv2") [Ast.Alias "imread" None] 0]].

(** The direct install fails, every name is in the index and [requests]
    installs; the service proposes [requests]. *)
Definition second_try (answer : string) : Env :=
  {| env_check_call _ c :=
       match c with
       | PipInstall package =>
           if String.eqb package "requests" then CallReturned
           else CallRaised Scenario.exit_status_1
       | PipInstallDryRun _ => CallReturned
       end;
     env_chat _ _ _ := ChatContent "pip install requests";
     env_find_spec _ _ := false;
     env_input _ _ := InputLine answer |}.

(** The interpreter starts but has no [pip] module: every [python -m pip]
    command exits with status 1. *)
Definition no_pip_module : Env :=
  {| env_check_call _ _ := CallRaised Scenario.exit_status_1;
     env_chat _ _ _ := ChatContent "pip install requests";
     env_find_spec _ _ := false;
     env_input _ _ := InputLine "y" |}.

Definition out_of_memory : exn := OtherException "[Errno 12] Cannot allocate memory".

(** No subprocess can be started: every call raises [OSError]. *)
Definition spawn_fails : Env :=
  {| env_check_call _ _ := CallRaised out_of_memory;
     env_chat _ _ _ := ChatContent "pip install requests";
     env_find_spec _ _ := false;
     env_input _ _ := InputLine "y" |}.




(** ** The answer test of the prompt *)




(** ** Composition *)

Lemma events_of_bind {A B} (E : Env) (p : prog A) (f : A -> prog B) (h : list event) :
  events_of E (bind p f) h =
  events_of E p h ++
  match outcome_of E p h with
  | Returned a => events_of E (f a) (h ++ events_of E p h)
  | _ => []
  end.
Proof.
  revert h. induction p as [a| | |c k IH|m c k IH|m k IH|q k IH|l k IH]; intros h; cbn.
  - by rewrite app_nil_r.
  - done.
  - done.
  - rewrite IH, <- app_assoc. done.
  - rewrite IH, <- app_assoc. done.
  - rewrite IH, <- app_assoc. done.
  - rewrite IH, <- app_assoc. done.
  - rewrite IH, <- app_assoc. done.
Qed.

Lemma outcome_of_bind {A B} (E : Env) (p : prog A) (f : A -> prog B) (h : list event) :
  outcome_of E (bind p f) h =
  match outcome_of E p h with
  | Returned a => outcome_of E (f a) (h ++ events_of E p h)
  | Exited code => Exited code
  | Crashed e => Crashed e
  end.
Proof.
  revert h. induction p as [a| | |c k IH|m c k IH|m k IH|q k IH|l k IH]; intros h; cbn.
  - by rewrite app_nil_r.
  - done.
  - done.
  - rewrite IH, <- app_assoc. done.
  - rewrite IH, <- app_assoc. done.
  - rewrite IH, <- app_assoc. done.
  - rewrite IH, <- app_assoc. done.
  - rewrite IH, <- app_assoc. done.
Qed.

Lemma queries_for_app (module : string) (t1 t2 : list event) :
  queries_for module (t1 ++ t2) = queries_for module t1 ++ queries_for module t2.
Proof. unfold queries_for, ai_queries. by rewrite omap_app, filter_app, fmap_app. Qed.

Lemma filter_own_module (module : string) (qs : list (string * context)) (n : nat) :
  fst <$> qs = replicate n module -> filter (fun q => q.1 = module) qs = qs.
Proof.
  revert n. induction qs as [|[m c] qs IH]; intros [|n] Hfst; simplify_eq/=; [done|].
  rewrite filter_cons_True by done. f_equal. by eapply IH.
Qed.

Lemma filter_other_module (module other : string) (qs : list (string * context)) (n : nat) :
  other <> module ->
  fst <$> qs = replicate n other -> filter (fun q => q.1 = module) qs = [].
Proof.
  intros Hne. revert n. induction qs as [|[m c] qs IH]; intros [|n] Hfst; simplify_eq/=; [done|].
  rewrite filter_cons_False by done. by eapply IH.
Qed.

Lemma at_every_split_spec {A} (P : list A -> A -> list A -> Prop) (t pre : list A) :
  at_every_split P pre t ->
  forall mid x post, t = mid ++ x :: post -> P (pre ++ mid) x post.
Proof.
  revert pre. induction t as [|y t IH]; intros pre Hall mid x post Heq.
  - by destruct mid.
  - destruct Hall as [Hhere Hrest]. destruct mid as [|z mid]; simplify_eq/=.
    + by rewrite app_nil_r.
    + specialize (IH _ Hrest mid x post eq_refl).
      by rewrite <- app_assoc in IH.
Qed.

Lemma query_shape_bounds (cs : list context) :
  query_shape cs = true ->
  List.length cs <= 3 /\ count is_initial cs <= 1
  /\ count is_invalid_retry cs <= 1 /\ count is_fails_retry cs <= 1.
Proof.
  destruct cs as [|[] [|[] [|[] [|]]]]; cbn; intros Hshape;
    try discriminate Hshape; repeat split; lia.
Qed.

(** ** Symbolic execution of the loop body *)

Arguments search_suggestion : simpl never.
Arguments truthy_opt : simpl never.
Arguments accepts : simpl never.
Arguments PyStr.strip : simpl never.
Arguments PyStr.lower : simpl never.
Arguments PyStr.truthy : simpl never.
Arguments resolve_package : simpl never.

Ltac unfold_script :=
  unfold install_module, ai_fallback, try_install, is_real_pypi_package, ask_ai_for_package,
    if_pkg_and, is_not_real, check_call, chat_completions_create, find_spec, input, print,
    sys_exit.

(** Case on whatever the program at the head of the run is waiting for. *)
Ltac step :=
  match goal with
  | |- context [bind (if negb ?x then _ else _) _] => destruct x eqn:?
  | |- context [events_of _ (if negb ?x then _ else _) _] => destruct x eqn:?
  | |- context [outcome_of _ (if negb ?x then _ else _) _] => destruct x eqn:?
  | |- context [bind (match ?x with _ => _ end) _] => destruct x eqn:?
  | |- context [events_of _ (match ?x with _ => _ end) _] => destruct x eqn:?
  | |- context [outcome_of _ (match ?x with _ => _ end) _] => destruct x eqn:?
  end.

Ltac execute := cbn; repeat (step; cbn).

Ltac close_path :=
  cbn; repeat split; try done;
  repeat match goal with H : accepts _ = _ |- _ => rewrite H end; eauto.

Lemma install_module_stdlib (E : Env) (stdlib : gset string) (module : string) (h : list event) :
  module ∈ stdlib ->
  run E (install_module stdlib module) h = ([EvPrint (PartOfStdlib module)], Returned tt).
Proof. intros Hin. unfold run, install_module. by rewrite bool_decide_true. Qed.

Lemma install_module_importable
    (E : Env) (stdlib : gset string) (module : string) (h : list event) :
  module ∉ stdlib -> env_find_spec E h module = true ->
  run E (install_module stdlib module) h
  = ([EvFindSpec module true; EvPrint (AlreadyInstalled module)], Returned tt).
Proof.
  intros Hout Hfound. unfold run, install_module, find_spec, print.
  rewrite bool_decide_false by done. cbn. by rewrite Hfound.
Qed.

(** Every query of the body is about its own module, the queries come in
    one of five sequences, and there is one exactly when the direct install
    came back with [False]. *)
Lemma install_module_queries (E : Env) (stdlib : gset string) (module : string) (h : list event) :
  let t := events_of E (install_module stdlib module) h in
  fst <$> ai_queries t = replicate (List.length (ai_queries t)) module
  /\ query_shape (snd <$> ai_queries t) = true
  /\ ai_invoked t = direct_install_failed t.
Proof.
  unfold_script. case_bool_decide; [done|]. execute; done.
Qed.


Lemma install_module_installs (E : Env) (stdlib : gset string) (module : string) (h : list event) :
  at_every_split (install_gated module) [] (events_of E (install_module stdlib module) h).
Proof.
  unfold_script. case_bool_decide; [by cbn|]. execute; close_path.
Qed.

Lemma install_module_queries_for
    (E : Env) (stdlib : gset string) (m module : string) (h : list event) :
  queries_for module (events_of E (install_module stdlib m) h)
  = if decide (m = module) then snd <$> ai_queries (events_of E (install_module stdlib m) h)
    else [].
Proof.
  destruct (install_module_queries E stdlib m h) as (Hown & _ & _).
  unfold queries_for. destruct (decide (m = module)) as [->|Hne].
  - by erewrite filter_own_module.
  - by erewrite filter_other_module.
Qed.

Lemma install_missing_cons
    (E : Env) (stdlib : gset string) (m : string) (rest : list string) (h : list event) :
  events_of E (install_missing stdlib (m :: rest)) h =
  events_of E (install_module stdlib m) h ++
  match outcome_of E (install_module stdlib m) h with
  | Returned _ => events_of E (install_missing stdlib rest)
                    (h ++ events_of E (install_module stdlib m) h)
  | _ => []
  end.
Proof. cbn [install_missing]. by rewrite events_of_bind. Qed.

Lemma install_missing_queries_absent
    (E : Env) (stdlib : gset string) (imports : list string) (module : string) (h : list event) :
  module ∉ imports ->
  queries_for module (events_of E (install_missing stdlib imports) h) = [].
Proof.
  revert h. induction imports as [|m rest IH]; intros h Hout; [done|].
  apply not_elem_of_cons in Hout as [Hne Hout].
  rewrite install_missing_cons, queries_for_app, install_module_queries_for.
  rewrite decide_False by done.
  destruct (outcome_of E (install_module stdlib m) h); [by apply IH|done|done].
Qed.

Lemma install_missing_query_shape
    (E : Env) (stdlib : gset string) (imports : list string) (module : string) (h : list event) :
  NoDup imports ->
  query_shape (queries_for module (events_of E (install_missing stdlib imports) h)) = true.
Proof.
  revert h. induction imports as [|m rest IH]; intros h Hnodup; [done|].
  apply NoDup_cons in Hnodup as [Hfresh Hnodup].
  rewrite install_missing_cons, queries_for_app, install_module_queries_for.
  destruct (decide (m = module)) as [->|Hne].
  - assert (queries_for module
              match outcome_of E (install_module stdlib module) h with
              | Returned _ => events_of E (install_missing stdlib rest)
                                (h ++ events_of E (install_module stdlib module) h)
              | _ => []
              end = []) as ->.
    { destruct (outcome_of E (install_module stdlib module) h); [|done|done].
      by apply install_missing_queries_absent. }
    rewrite app_nil_r. by destruct (install_module_queries E stdlib module h) as (_ & Hshape & _).
  - destruct (outcome_of E (install_module stdlib m) h); [by apply IH|done|done].
Qed.

(** ** More on the run of the loop body *)

Arguments body_facts : simpl never.

(** A path on which the same test came out both ways, or on which the
    pattern was found in no text at all, is not a path of the program. *)
Ltac absurd_path :=
  match goal with
  | H : None = Some _ |- _ => discriminate H
  | H : Some _ = None |- _ => discriminate H
  | H : true = false |- _ => discriminate H
  | H : false = true |- _ => discriminate H
  | H : search_suggestion None = Some _ |- _ => by vm_compute in H
  | H : truthy_opt None = true |- _ => by vm_compute in H
  end.

(** Like [step], but a test whose result is already known is not cased on
    again. *)
Ltac advance :=
  match goal with
  | H : ?x = _ |- context [bind (if negb ?x then _ else _) _] => rewrite H
  | H : ?x = _ |- context [events_of _ (if negb ?x then _ else _) _] => rewrite H
  | H : ?x = _ |- context [outcome_of _ (if negb ?x then _ else _) _] => rewrite H
  | H : ?x = _ |- context [bind (match ?x with _ => _ end) _] => rewrite H
  | H : ?x = _ |- context [events_of _ (match ?x with _ => _ end) _] => rewrite H
  | H : ?x = _ |- context [outcome_of _ (match ?x with _ => _ end) _] => rewrite H
  | _ => step
  end.

Ltac explore := cbn; repeat first [absurd_path | advance; cbn].

Ltac close_position :=
  cbn;
  unfold position_facts, name_vetted, asked_after_success, ends_properly, candidate_goes_on,
    from_latest_answer;
  cbn; repeat split;
  try match goal with
      | |- exists r rest, _ = _ :: _ :: rest /\ _ =>
          do 2 eexists; split; [reflexivity|cbn]
      end;
  eauto 8.

Lemma install_module_body_facts
    (E : Env) (stdlib : gset string) (module : string) (h : list event) :
  body_facts module (events_of E (install_module stdlib module) h)
    (outcome_of E (install_module stdlib module) h).
Proof.
  unfold_script. case_bool_decide.
  - unfold body_facts, class_line_first. cbn.
    repeat split; first [done | by auto | by repeat constructor].
  - explore.
    all: unfold body_facts, class_line_first; cbn;
      repeat split; first [done | by auto | by repeat constructor].
Qed.

Lemma install_module_position_facts
    (E : Env) (stdlib : gset string) (module : string) (h : list event) :
  at_every_split (position_facts module) [] (events_of E (install_module stdlib module) h).
Proof.
  unfold_script. case_bool_decide; [by cbn|].
  explore. all: close_position.
Qed.

(** ** Sample evaluations *)

Example search_takes_the_first_match :
  Re.search_group1 "Run pip install scikit-learn, not pip install sklearn."
  = Some "scikit-learn".
Proof. by vm_compute. Qed.

Example search_needs_a_name : Re.search_group1 "pip install !" = None.
Proof. by vm_compute. Qed.

Example strip_then_lower : PyStr.lower (PyStr.strip "  Y ") = "y".
Proof. by vm_compute. Qed.

Example extract_imports_roots :
  extract_imports
    (Ast.Other [Ast.Import [Ast.Alias "os.path" None; Ast.Alias "cv2" (Some "cv")];
                Ast.Other [Ast.ImportFrom (Some "sklearn.model_selection")
                             [Ast.Alias "train_test_split" None] 0]])
  = {[ "os"; "cv2"; "sklearn" ]}.
Proof. by vm_compute. Qed.

Example render_no_valid_name :
  render (NoValidName "cv2")
  = "⚠️ No valid package name found in AI suggestion for 'cv2'. Skipping.".
Proof. by vm_compute. Qed.

Example healthy_run :
  run Scenario.healthy (install_missing {[ "os" ]} ["os"; "bs4"; "numpy"]) []
  = ([ EvPrint (PartOfStdlib "os");
       EvFindSpec "bs4" false;
       EvPrint (Installing "beautifulsoup4" "bs4");
       EvCheckCall (PipInstall "beautifulsoup4") CallReturned;
       EvPrint (Installed "beautifulsoup4");
       EvFindSpec "numpy" true;
       EvPrint (AlreadyInstalled "numpy") ],
     Returned tt).
Proof. by vm_compute. Qed.

(** ** The package name resolver *)

Lemma COMMON_MAP_lookup (module package : string) :
  COMMON_MAP !! module = Some package ->
  (module, package) ∈
    [ ("bs4", "beautifulsoup4"); ("cv2", "opencv-python"); ("sklearn", "scikit-learn");
      ("PIL", "pillow"); ("yaml", "pyyaml"); ("Crypto", "pycryptodome") ].
Proof. unfold COMMON_MAP. apply elem_of_list_to_map_2. Qed.

(** C5: [resolve_package] is a function defined on every module name; a
    name in the static table resolves to its table entry, which is never the
    module name itself ([cv2] gives [opencv-python]), and a name absent from
    the table resolves to itself. *)
Theorem resolve_package_lookup_or_identity (module : string) :
  (forall package, COMMON_MAP !! module = Some package ->
     resolve_package module = package /\ package <> module)
  /\ (COMMON_MAP !! module = None -> resolve_package module = module)
  /\ resolve_package "cv2" = "opencv-python".
Proof.
  split; [|split].
  - intros package Hin. split.
    + unfold resolve_package. by rewrite Hin.
    + apply COMMON_MAP_lookup in Hin.
      repeat (apply elem_of_cons in Hin as [Hin|Hin]; [by inversion Hin|]).
      by apply elem_of_nil in Hin.
  - intros Hout. unfold resolve_package. by rewrite Hout.
  - by vm_compute.
Qed.

Lemma resolve_package_lookup_or_identity_witness :
  (resolve_package "sklearn" = "scikit-learn" /\ "scikit-learn" <> "sklearn")
  /\ resolve_package "requests" = "requests".
Proof.
  split.
  - apply (resolve_package_lookup_or_identity "sklearn"). by vm_compute.
  - apply (resolve_package_lookup_or_identity "requests"). by vm_compute.
Defined.

(** ** The import extractor *)

Lemma foldl_add_alias (names : list Ast.alias) (imports : gset string) (x : string) :
  x ∈ foldl (fun acc a => acc ∪ {[ PyStr.split_dot_0 (Ast.name a) ]}) imports names <->
  x ∈ imports \/ exists a, a ∈ names /\ x = PyStr.split_dot_0 (Ast.name a).
Proof.
  revert imports. induction names as [|a names IH]; intros imports; simpl.
  - split; [by left|]. intros [?|(a & Ha & _)]; [done|]. by apply elem_of_nil in Ha.
  - rewrite IH. set_unfold. naive_solver.
Qed.

Lemma visit_spec (imports : gset string) (n : Ast.node) (x : string) :
  x ∈ visit imports n <-> x ∈ imports \/ contributes n x.
Proof.
  destruct n as [names|[module|] names level|children]; simpl.
  - apply foldl_add_alias.
  - destruct module as [|c module]; simpl.
    + naive_solver.
    + set_unfold. naive_solver.
  - naive_solver.
  - naive_solver.
Qed.

Lemma foldl_visit_spec (nodes : list Ast.node) (imports : gset string) (x : string) :
  x ∈ foldl visit imports nodes <->
  x ∈ imports \/ exists n, n ∈ nodes /\ contributes n x.
Proof.
  revert imports. induction nodes as [|n nodes IH]; intros imports; simpl.
  - split; [by left|]. intros [?|(n & Hn & _)]; [done|]. by apply elem_of_nil in Hn.
  - rewrite IH, visit_spec. set_unfold. naive_solver.
Qed.

(** C8, as amended: an [ImportFrom] node whose [module] attribute is [None]
    or empty (the shape of [from . import X]) adds no name; the names in the
    returned set are exactly the root components of the [Import] aliases and
    of the non-empty [module] attributes of the [ImportFrom] nodes of the
    tree. *)
Theorem extract_imports_skips_empty_module :
  (forall imports names level, visit imports (Ast.ImportFrom None names level) = imports)
  /\ (forall imports names level, visit imports (Ast.ImportFrom (Some "") names level) = imports)
  /\ (forall tree x,
        x ∈ extract_imports tree <-> exists n, n ∈ Ast.walk tree /\ contributes n x).
Proof.
  split; [done|]. split; [done|].
  intros tree x. unfold extract_imports. rewrite foldl_visit_spec. set_solver.
Qed.

Lemma extract_imports_skips_empty_module_witness :
  "os" ∈ extract_imports Scenario.sibling_import.
Proof.
  destruct extract_imports_skips_empty_module as (_ & _ & Hiff). apply Hiff.
  exists (Ast.Import [Ast.Alias "os.path" None]). split.
  - simpl. set_solver.
  - exists (Ast.Alias "os.path" None). split; [set_solver|by vm_compute].
Defined.

(** C8 as stated fails: [from .pkg import Y] parses to an [ImportFrom] node
    with [module = "pkg"] and [level = 1], and the extractor, which never
    reads [level], puts [pkg] into the set. *)
Lemma relative_import_with_module_is_collected :
  visit ∅ (Ast.ImportFrom (Some "pkg") [Ast.Alias "Y" None] 1) = {[ "pkg" ]}
  /\ extract_imports Scenario.relative_from_pkg = {[ "pkg" ]}
  /\ "pkg" ∈ extract_imports Scenario.relative_from_pkg.
Proof. split; [by vm_compute|]. split; [by vm_compute|]. vm_compute. set_solver. Qed.

(** ** The installer and the dry-run check *)



(** C7, evaluated where the code falls short of it.  The command is
    [sys.executable -m pip install ...]: when the pip module is not there,
    the interpreter starts and exits with status 1, which [check_call]
    raises as [CalledProcessError].  [try_install] reports an ordinary
    failed install, the guidance is not printed, the loop goes on to query
    the service and the process ends with status 0.  And a dry run that
    cannot start its subprocess ends the process through an uncaught
    exception, with no guidance: the missing binary at an install is not the
    only fatal condition. *)
Theorem unavailable_pip_is_an_ordinary_failure :
  run no_pip_module (try_install "requests" "requests") []
  = ([ EvCheckCall (PipInstall "requests") (CallRaised Scenario.exit_status_1);
       EvPrint (FailedToInstall "requests" "requests" Scenario.exit_status_1) ],
     Returned false)
  /\ stdout (events_of no_pip_module (install_missing ∅ ["requests"]) [])
     = [ Installing "requests" "requests";
         FailedToInstall "requests" "requests" Scenario.exit_status_1;
         NotRealPackage "requests" ]
  /\ ai_queries (events_of no_pip_module (install_missing ∅ ["requests"]) [])
     = [ ("requests", SuggestReplacement); ("requests", LastAnswerInvalid) ]
  /\ exit_code (outcome_of no_pip_module (install_missing ∅ ["requests"]) []) = 0%Z
  /\ run spawn_fails (install_missing ∅ ["requests"]) []
     = ([ EvFindSpec "requests" false;
          EvPrint (Installing "requests" "requests");
          EvCheckCall (PipInstall "requests") (CallRaised out_of_memory);
          EvPrint (FailedToInstall "requests" "requests" out_of_memory);
          EvChat "requests" SuggestReplacement (ChatContent "pip install requests");
          EvCheckCall (PipInstallDryRun "requests") (CallRaised out_of_memory) ],
        Crashed out_of_memory).
Proof. by vm_compute. Qed.

(** C10: the dry-run check catches [CalledProcessError] and nothing else.
    It returns [True] on a clean exit and [False] exactly on
    [CalledProcessError].  Any other exception, [FileNotFoundError] for a
    binary that cannot be started among them, is not caught: the check
    prints nothing, neither exits through [sys.exit] nor returns, and the
    exception goes on through whatever called the check. *)
Theorem is_real_pypi_package_lets_file_not_found_through
    (E : Env) (pkg : string) (h : list event) :
  let r := env_check_call E h (PipInstallDryRun pkg) in
  let t := events_of E (is_real_pypi_package pkg) h in
  let o := outcome_of E (is_real_pypi_package pkg) h in
  (r = CallReturned -> o = Returned true)
  /\ (forall msg, r = CallRaised (CalledProcessError msg) -> o = Returned false)
  /\ (forall msg, r = CallRaised (FileNotFoundError msg) ->
        o = Crashed (FileNotFoundError msg) /\ stdout t = []
        /\ forall (B : Type) (k : bool -> prog B),
             outcome_of E (bind (is_real_pypi_package pkg) k) h
             = Crashed (FileNotFoundError msg))
  /\ (o = Returned false -> exists msg, r = CallRaised (CalledProcessError msg))
  /\ (forall e, r = CallRaised e -> (forall msg, e <> CalledProcessError msg) ->
        o = Crashed e /\ stdout t = []
        /\ forall (B : Type) (k : bool -> prog B),
             outcome_of E (bind (is_real_pypi_package pkg) k) h = Crashed e).
Proof.
  intros r t o. subst r t o.
  assert (forall e, env_check_call E h (PipInstallDryRun pkg) = CallRaised e ->
          (forall msg, e <> CalledProcessError msg) ->
          outcome_of E (is_real_pypi_package pkg) h = Crashed e
          /\ stdout (events_of E (is_real_pypi_package pkg) h) = []
          /\ forall (B : Type) (k : bool -> prog B),
               outcome_of E (bind (is_real_pypi_package pkg) k) h = Crashed e) as Hother.
  { intros e Hr Hne.
    assert (outcome_of E (is_real_pypi_package pkg) h = Crashed e) as Ho.
    { unfold is_real_pypi_package, check_call. cbn. rewrite Hr.
      destruct e as [msg|msg|msg]; [by destruct (Hne msg)|done|done]. }
    split; [done|]. split.
    - unfold is_real_pypi_package, check_call. cbn. rewrite Hr. by destruct e.
    - intros B k. by rewrite outcome_of_bind, Ho. }
  split_and!.
  - intros Hr. unfold is_real_pypi_package, check_call. cbn. by rewrite Hr.
  - intros msg Hr. unfold is_real_pypi_package, check_call. cbn. by rewrite Hr.
  - intros msg Hr. by apply Hother.
  - unfold is_real_pypi_package, check_call. cbn.
    destruct (env_check_call E h (PipInstallDryRun pkg)) as [|[msg|msg|msg]]; cbn;
      try done. intros _. by exists msg.
  - done.
Qed.

Lemma is_real_pypi_package_lets_file_not_found_through_witness :
  outcome_of Scenario.no_pip (is_real_pypi_package "requests") []
  = Crashed Scenario.no_such_file
  /\ stdout (events_of Scenario.no_pip (is_real_pypi_package "requests") []) = []
  /\ forall (B : Type) (k : bool -> prog B),
       outcome_of Scenario.no_pip (bind (is_real_pypi_package "requests") k) []
       = Crashed Scenario.no_such_file.
Proof.
  destruct (is_real_pypi_package_lets_file_not_found_through Scenario.no_pip "requests" [])
    as (_ & _ & Hraise & _).
  apply Hraise. reflexivity.
Defined.

(** ** The decision loop *)

(** C6: a module in the standard-library list is classified as such at the
    first test, a module that [find_spec] finds is classified as installed
    (when the first test has not already claimed it); in both cases no
    subprocess is started, so nothing is installed, and the one line printed
    names the class. *)
Theorem stdlib_and_installed_modules_are_left_alone
    (E : Env) (stdlib : gset string) (module : string) (h : list event) :
  let t := events_of E (install_module stdlib module) h in
  (module ∈ stdlib ->
     classify stdlib E h module = StdLib
     /\ install_attempts t = [] /\ subprocess_calls t = []
     /\ stdout t = [PartOfStdlib module])
  /\ (env_find_spec E h module = true ->
        install_attempts t = [] /\ subprocess_calls t = []
        /\ (module ∉ stdlib ->
              classify stdlib E h module = AlreadyThere
              /\ stdout t = [AlreadyInstalled module])).
Proof.
  cbn zeta. split.
  - intros Hin. pose proof (install_module_stdlib E stdlib module h Hin) as [= -> _].
    unfold classify. by rewrite bool_decide_true.
  - intros Hfound. destruct (decide (module ∈ stdlib)) as [Hin|Hout].
    + by pose proof (install_module_stdlib E stdlib module h Hin) as [= -> _].
    + pose proof (install_module_importable E stdlib module h Hout Hfound) as [= -> _].
      unfold classify. by rewrite bool_decide_false, Hfound.
Qed.

Lemma stdlib_and_installed_modules_are_left_alone_witness :
  (classify {[ "json" ]} Scenario.healthy [] "json" = StdLib
   /\ install_attempts (events_of Scenario.healthy (install_module {[ "json" ]} "json") []) = []
   /\ subprocess_calls (events_of Scenario.healthy (install_module {[ "json" ]} "json") []) = []
   /\ stdout (events_of Scenario.healthy (install_module {[ "json" ]} "json") [])
      = [PartOfStdlib "json"])
  /\ (classify {[ "json" ]} Scenario.healthy [] "numpy" = AlreadyThere
      /\ stdout (events_of Scenario.healthy (install_module {[ "json" ]} "numpy") [])
         = [AlreadyInstalled "numpy"]).
Proof.
  split.
  - apply (stdlib_and_installed_modules_are_left_alone Scenario.healthy {[ "json" ]} "json" []).
    set_solver.
  - apply (stdlib_and_installed_modules_are_left_alone Scenario.healthy {[ "json" ]} "numpy" []).
    + reflexivity.
    + set_solver.
Defined.

(** C3: in the run of the loop body for a module, the completion service is
    queried if and only if the direct [pip install] was made and
    [try_install] came back from it with [False]; it is never queried for a
    module classified as standard library or as installed. *)
Theorem ai_fallback_iff_direct_install_failed
    (E : Env) (stdlib : gset string) (module : string) (h : list event) :
  let t := events_of E (install_module stdlib module) h in
  (ai_queries t <> [] <->
     exists r, head (install_results t) = Some r /\ try_install_value r = Some false)
  /\ (classify stdlib E h module = StdLib -> ai_queries t = [])
  /\ (classify stdlib E h module = AlreadyThere -> ai_queries t = []).
Proof.
  intros t. split; [|split].
  - destruct (install_module_queries E stdlib module h) as (_ & _ & Hiff).
    fold t in Hiff. clearbody t. unfold ai_invoked, direct_install_failed in Hiff.
    destruct (ai_queries t) as [|q qs]; destruct (install_results t) as [|r rs]; simpl.
    + naive_solver.
    + destruct (try_install_value r) as [[]|] eqn:Hvalue; naive_solver.
    + naive_solver.
    + destruct (try_install_value r) as [[]|] eqn:Hvalue; naive_solver.
  - subst t. unfold classify. case_bool_decide as Hin; [intros _|by destruct (env_find_spec E h module)].
    by pose proof (install_module_stdlib E stdlib module h Hin) as [= -> _].
  - subst t. unfold classify. case_bool_decide as Hin; [done|].
    destruct (env_find_spec E h module) eqn:Hfound; [intros _|done].
    by pose proof (install_module_importable E stdlib module h Hin Hfound) as [= -> _].
Qed.

Lemma ai_fallback_iff_direct_install_failed_witness :
  ai_queries (events_of Scenario.healthy (install_module {[ "json" ]} "json") []) = []
  /\ ai_queries (events_of Scenario.healthy (install_module {[ "json" ]} "numpy") []) = []
  /\ ai_queries (events_of Scenario.invalid_twice (install_module ∅ "mod") []) <> [].
Proof.
  split; [|split].
  - destruct (ai_fallback_iff_direct_install_failed Scenario.healthy {[ "json" ]} "json" [])
      as (_ & Hstdlib & _).
    apply Hstdlib. by vm_compute.
  - destruct (ai_fallback_iff_direct_install_failed Scenario.healthy {[ "json" ]} "numpy" [])
      as (_ & _ & Hthere).
    apply Hthere. by vm_compute.
  - destruct (ai_fallback_iff_direct_install_failed Scenario.invalid_twice ∅ "mod" [])
      as (Hiff & _ & _).
    apply Hiff. exists (CallRaised Scenario.exit_status_1). by vm_compute.
Defined.

(** C2: over the whole run of [install_missing] on a set of imports, the
    queries sent to the completion service about any one module are at most
    three: at most one initial query, at most one invalid-suggestion retry
    and at most one exists-but-fails retry. *)
Theorem at_most_three_ai_queries_per_module
    (E : Env) (stdlib : gset string) (imports : list string) (module : string)
    (h : list event) :
  NoDup imports ->
  let qs := queries_for module (events_of E (install_missing stdlib imports) h) in
  List.length qs <= 3
  /\ count is_initial qs <= 1
  /\ count is_invalid_retry qs <= 1
  /\ count is_fails_retry qs <= 1.
Proof.
  intros Hnodup. apply query_shape_bounds. by apply install_missing_query_shape.
Qed.

Lemma at_most_three_ai_queries_per_module_witness :
  List.length (queries_for "mod"
     (events_of (Scenario.foo_then_bar "n") (install_missing {[ "json" ]} ["mod"; "json"]) []))
  <= 3.
Proof.
  apply (at_most_three_ai_queries_per_module
           (Scenario.foo_then_bar "n") {[ "json" ]} ["mod"; "json"] "mod" []).
  apply NoDup_cons. split; [set_solver|apply NoDup_singleton].
Defined.






(** C4, evaluated where the code falls short of it.  The direct install
    fails and the service twice proposes a name that is not in the index:
    the run of the module ends after the line announcing a second query,
    with neither of the two closing warnings and no closing line naming the
    module.  The process status stays 0 and the next module is processed. *)
Theorem unresolved_module_gets_no_closing_warning :
  stdout (events_of Scenario.invalid_twice (install_module ∅ "totally_unknown_mod") [])
  = [ Installing "totally_unknown_mod" "totally_unknown_mod";
      FailedToInstall "totally_unknown_mod" "totally_unknown_mod" Scenario.exit_status_1;
      NotRealPackage "nosuchpkg" ]
  /\ List.filter (terminating_warning "totally_unknown_mod")
       (stdout (events_of Scenario.invalid_twice (install_module ∅ "totally_unknown_mod") []))
     = []
  /\ line_module <$>
       last (stdout (events_of Scenario.invalid_twice
                       (install_module ∅ "totally_unknown_mod") []))
     = Some None
  /\ exit_code (outcome_of Scenario.invalid_twice
                  (install_missing {[ "json" ]} ["totally_unknown_mod"; "json"]) []) = 0%Z
  /\ last (stdout (events_of Scenario.invalid_twice
                     (install_missing {[ "json" ]} ["totally_unknown_mod"; "json"]) []))
     = Some (PartOfStdlib "json").
Proof. by vm_compute. Qed.

(** ** The pattern of the suggestion *)

Lemma append_cons (c : ascii) (a b : string) : String c a +:+ b = String c (a +:+ b).
Proof. reflexivity. Qed.

Lemma append_nil (b : string) : "" +:+ b = b.
Proof. reflexivity. Qed.

Lemma strip_prefix_Some (p s rest : string) :
  PyStr.strip_prefix p s = Some rest -> s = p +:+ rest.
Proof.
  revert s. induction p as [|a p IH]; intros s; simpl.
  - by intros [= ->].
  - destruct s as [|b s]; [done|].
    destruct (Ascii.eqb a b) eqn:Hab; [|done].
    apply Ascii.eqb_eq in Hab as ->. intros Hrest.
    by rewrite append_cons, (IH _ Hrest).
Qed.

Lemma strip_prefix_app (p rest : string) : PyStr.strip_prefix p (p +:+ rest) = Some rest.
Proof.
  induction p as [|a p IH]; [done|].
  rewrite append_cons. simpl. by rewrite Ascii.eqb_refl.
Qed.

Lemma take_while_all (p : ascii -> bool) (s : string) :
  all_chars p (PyStr.take_while p s) = true.
Proof.
  induction s as [|c s IH]; simpl; [done|].
  destruct (p c) eqn:Hc; simpl; [|done]. by rewrite Hc.
Qed.

Lemma take_while_rest (p : ascii -> bool) (s : string) :
  exists rest, s = PyStr.take_while p s +:+ rest /\ next_char_ok p rest = true.
Proof.
  induction s as [|c s (rest & Hs & Hnext)]; simpl.
  - by exists "".
  - destruct (p c) eqn:Hc; simpl.
    + exists rest. split; [|done]. rewrite append_cons. by f_equal.
    + exists (String c s). simpl. by rewrite Hc.
Qed.

Lemma match_here_Some (s g : string) :
  Re.match_here s = Some g ->
  g <> "" /\ all_chars Re.pkg_char g = true
  /\ exists post, s = "pip install " +:+ g +:+ post /\ next_char_ok Re.pkg_char post = true.
Proof.
  unfold Re.match_here.
  destruct (PyStr.strip_prefix "pip install " s) as [rest|] eqn:Hprefix; [|done].
  apply strip_prefix_Some in Hprefix as ->.
  pose proof (take_while_all Re.pkg_char rest) as Hall.
  destruct (take_while_rest Re.pkg_char rest) as (post & Hrest & Hnext).
  destruct (PyStr.take_while Re.pkg_char rest) as [|c g'] eqn:Hrun; [done|].
  intros [= <-]. split; [done|]. split; [done|]. exists post. by rewrite Hrest at 1.
Qed.

(** X1: on a reply made of ASCII characters, a name found by the search is
    not empty, is made of letters, digits, underscores and hyphens only,
    stands in the reply right after the words [pip install ] and is not
    followed by a further character of the class. *)
Theorem search_group1_sound (s g : string) :
  is_ascii s = true ->
  Re.search_group1 s = Some g ->
  g <> "" /\ all_chars Re.pkg_char g = true
  /\ exists pre post,
       s = pre +:+ "pip install " +:+ g +:+ post
       /\ next_char_ok Re.pkg_char post = true.
Proof.
  intros _. induction s as [|c s IH].
  - cbn. done.
  - cbn [Re.search_group1].
    destruct (Re.match_here (String c s)) as [g'|] eqn:Hhere.
    + intros [= ->]. apply match_here_Some in Hhere as (Hne & Hall & post & Hs & Hnext).
      split; [done|]. split; [done|]. by exists "", post.
    + intros Hrec. destruct (IH Hrec) as (Hne & Hall & pre & post & Hs & Hnext).
      split; [done|]. split; [done|]. exists (String c pre), post.
      by rewrite append_cons, <- Hs.
Qed.

Lemma search_group1_sound_witness :
  "requests" <> "" /\ all_chars Re.pkg_char "requests" = true
  /\ exists pre post,
       "Use pip install requests." = pre +:+ "pip install " +:+ "requests" +:+ post
       /\ next_char_ok Re.pkg_char post = true.
Proof. apply (search_group1_sound "Use pip install requests." "requests"); by vm_compute. Defined.

(** X2: a reply that contains [pip install ] followed by a character of the
    class always yields a name. *)
Theorem search_group1_complete (pre rest : string) (c : ascii) :
  Re.pkg_char c = true ->
  exists g, Re.search_group1 (pre +:+ "pip install " +:+ String c rest) = Some g.
Proof.
  intros Hc. induction pre as [|a pre (g & IH)].
  - assert (Re.match_here ("pip install " +:+ String c rest)
            = Some (String c (PyStr.take_while Re.pkg_char rest))) as Hhere.
    { unfold Re.match_here. rewrite strip_prefix_app. cbn [PyStr.take_while]. by rewrite Hc. }
    exists (String c (PyStr.take_while Re.pkg_char rest)).
    change ("" +:+ "pip install " +:+ String c rest) with ("pip install " +:+ String c rest).
    destruct ("pip install " +:+ String c rest) eqn:Htext; cbn [Re.search_group1];
      by rewrite Hhere.
  - change (String a pre +:+ "pip install " +:+ String c rest)
      with (String a (pre +:+ "pip install " +:+ String c rest)).
    cbn [Re.search_group1].
    destruct (Re.match_here (String a (pre +:+ "pip install " +:+ String c rest))) as [g'|].
    + by exists g'.
    + by exists g.
Qed.

Lemma search_group1_complete_witness :
  exists g, Re.search_group1 ("Sure: " +:+ "pip install " +:+ String "p" "yyaml!") = Some g.
Proof. apply (search_group1_complete "Sure: " "yyaml!" "p"). reflexivity. Defined.

(** ** What the loop body does with a module *)

Lemma Nat_leb_le (n m : nat) : Nat.leb n m = true -> n <= m.
Proof. apply Nat.leb_le. Qed.

(** X3: in the run of the loop body for one module pip is asked to install
    at most three times and to dry-run at most three times, the user is
    asked at most once, and at most one closing warning is printed. *)
Theorem loop_body_bounds (E : Env) (stdlib : gset string) (module : string) (h : list event) :
  let t := events_of E (install_module stdlib module) h in
  List.length (install_attempts t) <= 3
  /\ List.length (dry_run_results t) <= 3
  /\ List.length (prompts t) <= 1
  /\ List.length (List.filter closing_warning (stdout t)) <= 1.
Proof.
  intros t. destruct (install_module_body_facts E stdlib module h) as (Hbounds & _).
  fold t in Hbounds. clearbody t. unfold within_bounds in Hbounds.
  apply andb_prop in Hbounds as [Hbounds Hwarn].
  apply andb_prop in Hbounds as [Hbounds Hprompt].
  apply andb_prop in Hbounds as [Hinstall Hdry].
  auto using Nat_leb_le.
Qed.

(** X4: the loop body prints exactly one line that tells the class of its
    module (standard library, already installed, or being installed), that
    line is the first line it prints, and the only module it looks up with
    [find_spec] is its own. *)
Theorem loop_body_announces_its_module
    (E : Env) (stdlib : gset string) (module : string) (h : list event) :
  let t := events_of E (install_module stdlib module) h in
  announced t = [module]
  /\ (exists l, head (stdout t) = Some l
       /\ (l = PartOfStdlib module \/ l = AlreadyInstalled module
           \/ l = Installing (resolve_package module) module))
  /\ Forall (eq module) (probed t).
Proof.
  intros t.
  destruct (install_module_body_facts E stdlib module h) as (_ & _ & Hfirst & Hprobed & Hann).
  fold t in Hfirst, Hprobed, Hann. split; [done|]. split; [|done].
  unfold class_line_first in Hfirst. destruct (stdout t) as [|l ls]; [done|]. by exists l.
Qed.

(** X5: in a run where the replies of the completion service are ASCII
    text, a name that pip is asked to dry-run is what the pattern finds in
    the latest reply.  A name that pip is asked to install is the resolved
    package of the module at the first install of the run; at every later
    install it is the name found in the latest reply, and the latest dry run
    was of that name and succeeded. *)
Theorem names_given_to_pip
    (E : Env) (stdlib : gset string) (module : string) (h : list event)
    (pre : list event) (cmd : command) (r : call_result) (post : list event) :
  events_of E (install_module stdlib module) h = pre ++ EvCheckCall cmd r :: post ->
  ascii_replies pre = true ->
  match cmd with
  | PipInstallDryRun c => from_latest_answer pre c
  | PipInstall c =>
      (install_attempts pre = [] /\ c = resolve_package module)
      \/ (install_attempts pre <> [] /\ from_latest_answer pre c
          /\ last (dry_run_results pre) = Some (c, CallReturned))
  end.
Proof.
  intros Hsplit _.
  pose proof (at_every_split_spec _ _ [] (install_module_position_facts E stdlib module h)
                pre (EvCheckCall cmd r) post Hsplit) as (Hvetted & _ & _ & _).
  pose proof (at_every_split_spec _ _ [] (install_module_installs E stdlib module h)
                pre (EvCheckCall cmd r) post Hsplit) as Hgated.
  change ([] ++ pre) with pre in *.
  destruct cmd as [c|c]; [|done].
  cbv beta iota delta [name_vetted] in Hvetted.
  cbv beta iota delta [install_gated] in Hgated.
  destruct (install_attempts pre) as [|a more].
  - left. by destruct Hgated.
  - right. by destruct Hvetted.
Qed.

(** X6: when the install of the first candidate succeeds, the loop body goes
    on to dry-run the same name and, if the dry run succeeds, to ask the
    user whether to install that very package. *)
Theorem prompt_follows_successful_candidate_install
    (E : Env) (stdlib : gset string) (module : string) (h : list event)
    (pre : list event) (c : string) (post : list event) :
  events_of E (install_module stdlib module) h
  = pre ++ EvCheckCall (PipInstall c) CallReturned :: post ->
  List.length (install_attempts pre) = 1 ->
  exists r rest,
    post = EvPrint (Installed c) :: EvCheckCall (PipInstallDryRun c) r :: rest
    /\ (r = CallReturned ->
        exists ai_suggestion answer rest',
          rest = EvPrint (AiSuggests ai_suggestion)
                 :: EvInput (InstallInstead c module) answer :: rest').
Proof.
  intros Hsplit Hone.
  pose proof (at_every_split_spec _ _ [] (install_module_position_facts E stdlib module h)
                pre (EvCheckCall (PipInstall c) CallReturned) post Hsplit)
    as (_ & Hasked & _ & _).
  change ([] ++ pre) with pre in Hasked.
  cbv beta iota delta [asked_after_success] in Hasked.
  destruct (install_attempts pre) as [|a [|b more]]; try done.
  destruct Hasked as (r & rest & Hpost & Hnext). exists r, rest. split; [done|].
  by intros ->.
Qed.

(** X7: a closing warning names the module of the loop body and is the last
    thing the body does. *)
Theorem closing_warning_is_last
    (E : Env) (stdlib : gset string) (module : string) (h : list event)
    (pre : list event) (l : line) (post : list event) :
  events_of E (install_module stdlib module) h = pre ++ EvPrint l :: post ->
  closing_warning l = true ->
  post = [] /\ line_module l = Some module.
Proof.
  intros Hsplit Hclosing.
  pose proof (at_every_split_spec _ _ [] (install_module_position_facts E stdlib module h)
                pre (EvPrint l) post Hsplit) as (_ & _ & Hends & _).
  destruct l; try done; by destruct Hends as [-> ->].
Qed.

(** X8: after an answer of pip that ends the process (no binary at an
    install, an uncaught exception at a dry run) the loop body starts no
    subprocess, sends no query and asks nothing: it only prints. *)
Theorem only_prints_after_fatal_answer
    (E : Env) (stdlib : gset string) (module : string) (h : list event)
    (pre : list event) (x : event) (post : list event) :
  events_of E (install_module stdlib module) h = pre ++ x :: post ->
  fatal_of x <> None ->
  forallb is_print post = true.
Proof.
  intros Hsplit Hfatal.
  pose proof (at_every_split_spec _ _ [] (install_module_position_facts E stdlib module h)
                pre x post Hsplit) as (_ & _ & Hends & _).
  unfold ends_properly in Hends.
  destruct x as [cmd r| | |p answer|l]; try done.
  - destruct (fatal_of (EvCheckCall cmd r)); done.
  - by destruct answer.
Qed.

(** ** The whole loop *)


Lemma announced_app (t1 t2 : list event) : announced (t1 ++ t2) = announced t1 ++ announced t2.
Proof. apply omap_app. Qed.




Lemma install_missing_announced
    (E : Env) (stdlib : gset string) (imports : list string) (h : list event) :
  announced (events_of E (install_missing stdlib imports) h) `prefix_of` imports
  /\ (outcome_of E (install_missing stdlib imports) h = Returned tt ->
      announced (events_of E (install_missing stdlib imports) h) = imports).
Proof.
  revert h. induction imports as [|m rest IH]; intros h.
  - split; [by exists []|done].
  - rewrite install_missing_cons, announced_app. cbn [install_missing].
    rewrite outcome_of_bind.
    destruct (install_module_body_facts E stdlib m h) as (_ & _ & _ & _ & ->).
    destruct (outcome_of E (install_module stdlib m) h) as [[]| |].
    + destruct (IH (h ++ events_of E (install_module stdlib m) h)) as [Hprefix Hall]. split.
      * by apply prefix_cons.
      * intros Hret. simpl. f_equal. by apply Hall.
    + split; [|done]. exists rest. done.
    + split; [|done]. exists rest. done.
Qed.

(** X10: the modules announced by [install_missing] are, in order, the
    imports it was given up to the one at which the process ended; when the
    loop returns, every import has been announced exactly once, in the order
    of the loop. *)
Theorem install_missing_announces_each_import
    (E : Env) (stdlib : gset string) (imports : list string) (h : list event) :
  announced (events_of E (install_missing stdlib imports) h) `prefix_of` imports
  /\ (outcome_of E (install_missing stdlib imports) h = Returned tt ->
      announced (events_of E (install_missing stdlib imports) h) = imports).
Proof. apply install_missing_announced. Qed.

Lemma names_given_to_pip_witness :
  from_latest_answer
    (take 11 (events_of (Scenario.foo_then_bar "n") (install_module ∅ "mod") [])) "bar".
Proof.
  apply (names_given_to_pip (Scenario.foo_then_bar "n") ∅ "mod" [] _
           (PipInstallDryRun "bar") CallReturned
           (drop 12 (events_of (Scenario.foo_then_bar "n") (install_module ∅ "mod") []))).
  - by vm_compute.
  - by vm_compute.
Defined.

Lemma prompt_follows_successful_candidate_install_witness :
  exists r rest,
    drop 8 (events_of (second_try "n") (install_module ∅ "reqs") [])
    = EvPrint (Installed "requests") :: EvCheckCall (PipInstallDryRun "requests") r :: rest
    /\ (r = CallReturned ->
        exists ai_suggestion answer rest',
          rest = EvPrint (AiSuggests ai_suggestion)
                 :: EvInput (InstallInstead "requests" "reqs") answer :: rest').
Proof.
  apply (prompt_follows_successful_candidate_install (second_try "n") ∅ "reqs" []
           (take 7 (events_of (second_try "n") (install_module ∅ "reqs") [])) "requests");
    by vm_compute.
Defined.

Lemma closing_warning_is_last_witness :
  drop 15 (events_of (Scenario.foo_then_bar "n") (install_module ∅ "mod") []) = []
  /\ line_module (SkippedAlternative "mod") = Some "mod".
Proof.
  apply (closing_warning_is_last (Scenario.foo_then_bar "n") ∅ "mod" []
           (take 14 (events_of (Scenario.foo_then_bar "n") (install_module ∅ "mod") [])));
    by vm_compute.
Defined.

Lemma only_prints_after_fatal_answer_witness :
  forallb is_print (drop 3 (events_of Scenario.no_pip (install_module ∅ "mod") [])) = true.
Proof.
  apply (only_prints_after_fatal_answer Scenario.no_pip ∅ "mod" []
           (take 2 (events_of Scenario.no_pip (install_module ∅ "mod") []))
           (EvCheckCall (PipInstall "mod") (CallRaised Scenario.no_such_file)));
    by vm_compute.
Defined.

Lemma install_missing_announces_each_import_witness :
  announced (events_of Scenario.invalid_twice
               (install_missing {[ "json" ]} ["totally_unknown_mod"; "json"]) [])
  = ["totally_unknown_mod"; "json"].
Proof.
  apply (install_missing_announces_each_import Scenario.invalid_twice {[ "json" ]}
           ["totally_unknown_mod"; "json"] []).
  by vm_compute.
Defined.

(** ** More on the resolver, the extractor and the helpers *)

(** X11: the package name the resolver returns is never itself a key of the
    static table, so resolving a second time changes nothing. *)
Theorem resolve_package_result_is_not_a_key (module : string) :
  COMMON_MAP !! resolve_package module = None
  /\ resolve_package (resolve_package module) = resolve_package module.
Proof.
  assert (COMMON_MAP !! resolve_package module = None) as Hnone.
  { unfold resolve_package at 1. destruct (COMMON_MAP !! module) as [package|] eqn:Hin; [|done].
    apply COMMON_MAP_lookup in Hin.
    repeat (apply elem_of_cons in Hin as [[= -> ->]|Hin]; [by vm_compute|]).
    by apply elem_of_nil in Hin. }
  split; [done|]. unfold resolve_package at 1. by rewrite Hnone.
Qed.

Lemma split_dot_0_no_dot (s : string) : has_dot (PyStr.split_dot_0 s) = false.
Proof.
  unfold has_dot. induction s as [|c s IH]; simpl; [done|].
  destruct (Ascii.eqb c ".") eqn:Hc; simpl; [done|]. by rewrite Hc.
Qed.

Lemma extract_imports_no_dot (tree : Ast.node) (x : string) :
  x ∈ extract_imports tree -> has_dot x = false.
Proof.
  unfold extract_imports. rewrite foldl_visit_spec.
  intros [Hempty|(n & _ & Hn)]; [by apply not_elem_of_empty in Hempty|].
  destruct n as [names|[module|] names level|children]; simpl in Hn; try done.
  - destruct Hn as (a & _ & ->). apply split_dot_0_no_dot.
  - destruct Hn as (_ & ->). apply split_dot_0_no_dot.
Qed.

(** X12: every name in the set returned by the extractor is free of dots: it
    is the root component of what was imported. *)
Theorem extract_imports_names_have_no_dot (tree : Ast.node) (x : string) :
  x ∈ extract_imports tree -> has_dot x = false.
Proof. apply extract_imports_no_dot. Qed.

Lemma extract_imports_names_have_no_dot_witness : has_dot "os" = false.
Proof.
  apply (extract_imports_names_have_no_dot Scenario.sibling_import "os").
  vm_compute. set_solver.
Defined.

Lemma elem_of_flat_map_walk (children : list Ast.node) (n : Ast.node) :
  n ∈ flat_map Ast.walk children <-> exists child, child ∈ children /\ n ∈ Ast.walk child.
Proof.
  rewrite list_elem_of_In, in_flat_map. split.
  - intros (child & Hchild & Hn). exists child. by rewrite !list_elem_of_In.
  - intros (child & Hchild & Hn). exists child. by rewrite <- !list_elem_of_In.
Qed.

(** X13: the imports of a block are the imports of the statements in it,
    nested blocks included; neither the order of the statements nor a
    repeated import changes the set. *)
Theorem extract_imports_of_block (children : list Ast.node) (x : string) :
  x ∈ extract_imports (Ast.Other children) <->
  exists child, child ∈ children /\ x ∈ extract_imports child.
Proof.
  unfold extract_imports. rewrite foldl_visit_spec. cbn [Ast.walk]. split.
  - intros [Hempty|(n & Hn & Hx)]; [by apply not_elem_of_empty in Hempty|].
    apply elem_of_cons in Hn as [->|Hn]; [done|].
    apply elem_of_flat_map_walk in Hn as (child & Hchild & Hn).
    exists child. split; [done|]. apply foldl_visit_spec. right. by exists n.
  - intros (child & Hchild & Hx). apply foldl_visit_spec in Hx.
    destruct Hx as [Hempty|(n & Hn & Hx)]; [by apply not_elem_of_empty in Hempty|].
    right. exists n. split; [|done]. apply elem_of_cons. right.
    apply elem_of_flat_map_walk. by exists child.
Qed.



(** X15: the dry-run check makes one subprocess call, with [--dry-run], never
    a real install, and prints nothing whatever the answer; an exception
    other than [CalledProcessError], which [try_install] would report as a
    failed install, goes through it uncaught. *)
Theorem is_real_pypi_package_only_dry_runs (E : Env) (pkg : string) (h : list event) :
  let r := env_check_call E h (PipInstallDryRun pkg) in
  let t := events_of E (is_real_pypi_package pkg) h in
  let o := outcome_of E (is_real_pypi_package pkg) h in
  t = [EvCheckCall (PipInstallDryRun pkg) r]
  /\ install_attempts t = [] /\ stdout t = []
  /\ (forall e, r = CallRaised e -> (forall msg, e <> CalledProcessError msg) ->
        o = Crashed e
        /\ (forall msg, e = OtherException msg ->
              forall E' h' package module,
                env_check_call E' h' (PipInstall package) = r ->
                outcome_of E' (try_install package module) h' = Returned false)).
Proof.
  unfold is_real_pypi_package, try_install, check_call, print, sys_exit. cbn.
  destruct (env_check_call E h (PipInstallDryRun pkg)) as [|[msg|msg|msg]]; cbn;
    split_and!; try done.
  - intros e [= <-] Hne. by destruct (Hne msg).
  - intros e [= <-] _. split; [done|]. by intros.
  - intros e [= <-] _. split; [done|]. intros msg' _ E' h' package module Hr. by rewrite Hr.
Qed.

Lemma is_real_pypi_package_only_dry_runs_witness :
  outcome_of Scenario.no_pip (is_real_pypi_package "requests") []
  = Crashed Scenario.no_such_file.
Proof.
  destruct (is_real_pypi_package_only_dry_runs Scenario.no_pip "requests" [])
    as (_ & _ & _ & Hraise).
  by apply Hraise.
Defined.

(** ** The entry point *)

Lemma loop_events_of_loop (t : list event) : loop_events (MainLoop <$> t) = t.
Proof. induction t as [|ev t IH]; [done|]. cbn. by f_equal. Qed.

Lemma loop_events_fmap (t : list event) (before : list main_event) :
  loop_events before = [] -> loop_events (before ++ (MainLoop <$> t)) = t.
Proof.
  intros Hbefore. unfold loop_events in *. rewrite omap_app, Hbefore.
  apply loop_events_of_loop.
Qed.

Lemma main_loaded (H : Host) (argv : list string) (tree : Ast.node) :
  host_startup H = None ->
  2 <= List.length argv ->
  host_load H (nth 1 argv "") = Loaded tree ->
  loop_events (main H argv).1
  = events_of (host_env H)
      (install_missing_call (host_stdlib_list H) (host_order H (extract_imports tree))) []
  /\ (main H argv).2
     = outcome_of (host_env H)
         (install_missing_call (host_stdlib_list H) (host_order H (extract_imports tree))) [].
Proof.
  intros Hstart Hargs Hload. unfold main. rewrite Hstart.
  destruct (Nat.ltb_spec (List.length argv) 2) as [Hlt|_]; [lia|].
  rewrite Hload. split; [|done]. simpl fst.
  by apply (loop_events_fmap _ [MainLoad _ _; MainFound _]).
Qed.

(** A run that does not reach the loop has no event of the loop. *)
Lemma main_without_loop (H : Host) (argv : list string) :
  host_startup H <> None
  \/ List.length argv < 2
  \/ (exists e, host_load H (nth 1 argv "") = LoadRaised e) ->
  loop_events (main H argv).1 = [] /\ exit_code (main H argv).2 = 1%Z.
Proof.
  unfold main. destruct (host_startup H) as [e|]; [done|].
  destruct (Nat.ltb_spec (List.length argv) 2) as [Hlt|Hge]; [done|].
  intros [?|[?|[e He]]]; [done|lia|]. by rewrite He.
Qed.



(** X17: in a run of the script, whatever the order in which the loop visits
    the set of imports, at most three queries are sent to the completion
    service about any one module. *)
Theorem main_at_most_three_queries_per_module
    (H : Host) (argv : list string) (module : string) :
  (forall s, host_order H s ≡ₚ elements s) ->
  List.length (queries_for module (loop_events (main H argv).1)) <= 3.
Proof.
  intros Horder.
  assert (loop_events (main H argv).1 = [] ->
          List.length (queries_for module (loop_events (main H argv).1)) <= 3) as Hnone.
  { intros ->. simpl. lia. }
  destruct (host_startup H) as [e|] eqn:Hstart.
  { eapply Hnone, proj1, main_without_loop. left. by rewrite Hstart. }
  destruct (Nat.ltb_spec (List.length argv) 2) as [Hlt|Hge].
  { eapply Hnone, proj1, main_without_loop. right. by left. }
  destruct (host_load H (nth 1 argv "")) as [tree|e] eqn:Hload.
  - destruct (main_loaded H argv tree Hstart Hge Hload) as [-> _].
    destruct (host_stdlib_list H) as [names|e]; cbn [install_missing_call]; [|simpl; lia].
    apply query_shape_bounds, install_missing_query_shape.
    rewrite Horder. apply NoDup_elements.
  - eapply Hnone, proj1, main_without_loop. right. right. by exists e.
Qed.

Lemma main_at_most_three_queries_per_module_witness :
  List.length
    (queries_for "bs4"
       (loop_events (main (plain_host sample_script Scenario.invalid_twice)
                       ["main.py"; "script.py"]).1)) <= 3.
Proof.
  apply (main_at_most_three_queries_per_module
           (plain_host sample_script Scenario.invalid_twice) ["main.py"; "script.py"] "bs4").
  intros s. reflexivity.
Defined.

(** X18: in a run of the script on a file that loads, every module the loop
    announces is a dot-free name of the import set of the file; when the
    loop returns, the announced modules are the import set, each member
    once. *)
Theorem main_announces_the_import_set
    (H : Host) (argv : list string) (tree : Ast.node) :
  (forall s, host_order H s ≡ₚ elements s) ->
  2 <= List.length argv ->
  host_load H (nth 1 argv "") = Loaded tree ->
  (forall m, m ∈ announced (loop_events (main H argv).1) ->
     m ∈ extract_imports tree /\ has_dot m = false)
  /\ ((main H argv).2 = Returned tt ->
      announced (loop_events (main H argv).1) ≡ₚ elements (extract_imports tree)).
Proof.
  intros Horder Hge Hload.
  destruct (host_startup H) as [e|] eqn:Hstart.
  { destruct (main_without_loop H argv) as [Hnone _]; [left; by rewrite Hstart|].
    rewrite Hnone. split; [by intros m ?%elem_of_nil|].
    unfold main. by rewrite Hstart. }
  destruct (main_loaded H argv tree Hstart Hge Hload) as [-> ->].
  destruct (host_stdlib_list H) as [names|e]; cbn [install_missing_call];
    [|split; [by intros m ?%elem_of_nil|done]].
  destruct (install_missing_announced (host_env H) (list_to_set names)
              (host_order H (extract_imports tree)) []) as [Hprefix Hall].
  split.
  - intros m Hm.
    assert (m ∈ extract_imports tree) as Hin.
    { apply elem_of_elements. rewrite <- Horder. by eapply elem_of_prefix. }
    split; [done|]. by eapply extract_imports_no_dot.
  - intros Hret. rewrite (Hall Hret). apply Horder.
Qed.

Lemma main_announces_the_import_set_witness :
  announced (loop_events (main (plain_host sample_script Scenario.healthy)
                            ["main.py"; "script.py"]).1)
  ≡ₚ elements (extract_imports sample_script).
Proof.
  apply (main_announces_the_import_set (plain_host sample_script Scenario.healthy)
           ["main.py"; "script.py"] sample_script).
  - intros s. reflexivity.
  - simpl. lia.
  - reflexivity.
  - by vm_compute.
Defined.
